(** * The SQLAlchemy backend of the Boson quota ledger

    A shallow embedding of [boson/db/sqlalchemy/api.py] (class [API]):
    the operations are programs in a state-and-exception monad over the
    session the context carries, the log, and the ambient sources of
    uuids and timestamps. *)

From Stdlib Require Import ZArith.
From stdpp Require Import base strings gmap list pretty.

Open Scope Z_scope.

(** ** Python values *)

Definition ID := string.
Definition Time := nat.

(** "A sequence listing the names of the fields". *)
Definition FieldSet := list string.

(** [auth_data] and [param_data] are dictionaries. *)
Abbreviation Data := (gmap string string).

(** The classes of [boson.db.sqlalchemy.models]. *)
Inductive ModelClass :=
  | CService | CCategory | CResource | CUsage | CQuota
  | CReservation | CReservedItem.

#[global] Instance ModelClass_eq_dec : EqDecision ModelClass.
Proof. solve_decision. Defined.

(** The exceptions this module can see: the builtins it raises or
    provokes, [boson.exceptions.Duplicate] with the class and id of the
    row passed as [klass], and the error SQLAlchemy reports for a bind
    parameter that is not a column value. *)
Inductive exn :=
  | TypeError
  | KeyError (key : option string)
  | AttributeError
  | Duplicate (klass : ModelClass) (row : ID)
  | InterfaceError.

(** What reaches [isinstance]: None, a string, an instance of a model
    class, or a class. *)
Inductive PyValue :=
  | VNone
  | VStr (s : string)
  | VInstance (cls : ModelClass)
  | VClass (cls : ModelClass).

(** An argument documented as "either a ``C`` object or a UUID of an
    existing C", or left at its default None. *)
Inductive Ref (A : Type) :=
  | RNone
  | RId (id : ID)
  | RObj (o : A).
Arguments RNone {A}.
Arguments RId {A} id.
Arguments RObj {A} o.

(** Truth value of an optional string: None and the empty string are
    false. *)
Definition truthy (x : option string) : bool :=
  match x with
  | Some s => negb (bool_decide (s = ""))
  | None => false
  end.

(** Truth value of an optional dictionary: None and the empty
    dictionary are false. *)
Definition truthy_dict (x : option Data) : bool :=
  match x with
  | Some d => negb (bool_decide (d = ∅))
  | None => false
  end.

(** [a or b]. *)
Definition py_or (a b : option string) : option string :=
  if truthy a then a else b.

Definition is_None {A} (x : option A) : bool :=
  match x with None => true | Some _ => false end.

(** ** Rows

    One record per model class; a field holds what the constructor call
    or the database gave the column, None when nothing did. *)

Record Service := mkService {
  s_id : ID;
  s_name : string;
  s_created_at : Time;
  s_updated_at : Time;
  s_auth_fields : FieldSet
}.

Record Category := mkCategory {
  c_id : ID;
  c_name : string;
  c_created_at : Time;
  c_updated_at : Time;
  c_service_id : option ID;
  c_usage_fset : FieldSet;
  c_quota_fsets : list FieldSet
}.

Record Resource := mkResource {
  r_id : ID;
  r_name : string;
  r_parameters : FieldSet;
  r_created_at : Time;
  r_updated_at : Time;
  r_service_id : option ID;
  r_category_id : option ID;
  r_absolute : bool
}.

Record Usage := mkUsage {
  u_id : ID;
  u_created_at : Time;
  u_updated_at : Time;
  u_parameter_data : Data;
  u_auth_data : Data;
  u_resource_id : option ID;
  u_used : option Z;
  u_reserved : option Z;
  u_until_refresh : Z;
  u_refresh_id : option ID
}.

(** [q_resorce_id] is the keyword [create_quota] passes; [q_resource_id]
    is the column the queries filter on. *)
Record Quota := mkQuota {
  q_id : ID;
  q_created_at : Time;
  q_updated_at : Time;
  q_resource_id : option ID;
  q_resorce_id : option ID;
  q_auth_data : Data;
  q_limit : option Z
}.

Inductive Status := PENDING | COMMITTED | ROLLED_BACK.

(** Modelled from the spec: the [status] column of a Reservation (the
    model classes are not among the sources; the spec's data model lists
    status ∈ {PENDING, COMMITTED, ROLLED_BACK}). *)
Record Reservation := mkReservation {
  v_id : ID;
  v_created_at : Time;
  v_updated_at : Time;
  v_expire : Time;
  v_status : option Status
}.

(** [i_resorce_id] is the keyword [reserve] passes; [i_resource_id] is
    the column. *)
Record ReservedItem := mkReservedItem {
  i_id : ID;
  i_created_at : Time;
  i_updated_at : Time;
  i_reservation_id : option ID;
  i_resource_id : option ID;
  i_resorce_id : option ID;
  i_usage_id : option ID;
  i_delta : Z
}.

(** Every model class has a class object and an [id] attribute. *)
Class Model (A : Type) := {
  model_class : ModelClass;
  row_id : A -> ID
}.

#[global] Instance Service_model : Model Service :=
  {| model_class := CService; row_id := s_id |}.
#[global] Instance Category_model : Model Category :=
  {| model_class := CCategory; row_id := c_id |}.
#[global] Instance Resource_model : Model Resource :=
  {| model_class := CResource; row_id := r_id |}.
#[global] Instance Usage_model : Model Usage :=
  {| model_class := CUsage; row_id := u_id |}.
#[global] Instance Quota_model : Model Quota :=
  {| model_class := CQuota; row_id := q_id |}.
#[global] Instance Reservation_model : Model Reservation :=
  {| model_class := CReservation; row_id := v_id |}.
#[global] Instance ReservedItem_model : Model ReservedItem :=
  {| model_class := CReservedItem; row_id := i_id |}.

(** The Python value behind an object-or-id argument. *)
Definition ref_value `{Model A} (x : Ref A) : PyValue :=
  match x with
  | RNone => VNone
  | RId s => VStr s
  | RObj _ => VInstance model_class
  end.

(** ** The session

    A SQLAlchemy session: the rows the database holds and the rows added
    since the transaction began.  A query sees both (the session flushes
    before it queries), in insertion order. *)

Record Tables := mkTables {
  services : list Service;
  categories : list Category;
  resources : list Resource;
  usages : list Usage;
  quotas : list Quota;
  reservations : list Reservation;
  reserved_items : list ReservedItem
}.

Definition no_rows : Tables := mkTables [] [] [] [] [] [] [].

Definition tables_app (a b : Tables) : Tables :=
  {| services := services a ++ services b;
     categories := categories a ++ categories b;
     resources := resources a ++ resources b;
     usages := usages a ++ usages b;
     quotas := quotas a ++ quotas b;
     reservations := reservations a ++ reservations b;
     reserved_items := reserved_items a ++ reserved_items b |}.

Record Session := mkSession {
  committed : Tables;
  pending : Tables
}.

(** The rows of one table a query ranges over. *)
Definition rows {A} (table : Tables -> list A) (s : Session) : list A :=
  table (committed s) ++ table (pending s).

(** [session.commit()] and [session.rollback()]. *)
Definition session_commit (s : Session) : Session :=
  {| committed := tables_app (committed s) (pending s); pending := no_rows |}.

Definition session_rollback (s : Session) : Session :=
  {| committed := committed s; pending := no_rows |}.

(** ** The world an operation runs in *)

Inductive LogRecord :=
  | ErrorRecord (msg : string) (args : list (option string))
  | ExceptionRecord (err : exn).

(** [session] is [context.session]; [log] is what [LOG] has received;
    [uuid_of] and [time_at] are the values [utils.generate_uuid()] and
    [datetime.datetime.now()] give on their successive calls;
    [kwargs_checked] says whether a model constructor rejects a keyword
    that names no column, as SQLAlchemy's declarative constructor does
    (the model classes are not among the sources). *)
Record World := mkWorld {
  session : Session;
  log : list LogRecord;
  uuid_of : nat -> ID;
  uuids_drawn : nat;
  time_at : nat -> Time;
  clock_reads : nat;
  kwargs_checked : bool
}.

Inductive Outcome (A : Type) :=
  | Returned (a : A)
  | Raised (e : exn).
Arguments Returned {A} a.
Arguments Raised {A} e.

Definition M (A : Type) : Type := World -> Outcome A * World.

Definition ret {A} (a : A) : M A := fun w => (Returned a, w).

Definition bind {A B} (m : M A) (f : A -> M B) : M B := fun w =>
  match m w with
  | (Returned a, w') => f a w'
  | (Raised e, w') => (Raised e, w')
  end.

Declare Scope py_scope.
Delimit Scope py_scope with py.
Bind Scope py_scope with M.
Notation "x <- m ;; k" := (bind m (fun x => k))
  (at level 100, m at next level, right associativity) : py_scope.
Notation "m ;; k" := (bind m (fun _ => k))
  (at level 100, right associativity) : py_scope.
Open Scope py_scope.

Definition raise {A} (e : exn) : M A := fun w => (Raised e, w).

(** [try: body except Exception as err: handler]. *)
Definition try_except {A} (body : M A) (handler : exn -> M A) : M A :=
  fun w =>
    match body w with
    | (Returned a, w') => (Returned a, w')
    | (Raised e, w') => handler e w'
    end.

Definition with_session (f : Session -> Session) (w : World) : World :=
  {| session := f (session w); log := log w;
     uuid_of := uuid_of w; uuids_drawn := uuids_drawn w;
     time_at := time_at w; clock_reads := clock_reads w;
     kwargs_checked := kwargs_checked w |}.

Definition with_pending (f : Tables -> Tables) : World -> World :=
  with_session (fun s => {| committed := committed s; pending := f (pending s) |}).

Definition emit (r : LogRecord) : M unit := fun w =>
  (Returned tt,
   {| session := session w; log := log w ++ [r];
      uuid_of := uuid_of w; uuids_drawn := uuids_drawn w;
      time_at := time_at w; clock_reads := clock_reads w;
      kwargs_checked := kwargs_checked w |}).

Definition generate_uuid : M ID := fun w =>
  (Returned (uuid_of w (uuids_drawn w)),
   {| session := session w; log := log w;
      uuid_of := uuid_of w; uuids_drawn := S (uuids_drawn w);
      time_at := time_at w; clock_reads := clock_reads w;
      kwargs_checked := kwargs_checked w |}).

Definition now : M Time := fun w =>
  (Returned (time_at w (clock_reads w)),
   {| session := session w; log := log w;
      uuid_of := uuid_of w; uuids_drawn := uuids_drawn w;
      time_at := time_at w; clock_reads := S (clock_reads w);
      kwargs_checked := kwargs_checked w |}).

(** [context.session.query(sa_models.C)]. *)
Definition query {A} (table : Tables -> list A) : M (list A) := fun w =>
  (Returned (rows table (session w)), w).

(** [.first()]. *)
Definition first {A} (l : list A) : option A := head l.

(** A constructor call carrying a keyword that names no column. *)
Definition unknown_keyword {A} (obj : A) : M A := fun w =>
  if kwargs_checked w then (Raised TypeError, w) else (Returned obj, w).

(** [LOG.error(msg % args)] and [LOG.exception(err)]. *)
Definition LOG_error (msg : string) (args : list (option string)) : M unit :=
  emit (ErrorRecord msg args).

Definition LOG_exception (err : exn) : M unit :=
  emit (ExceptionRecord err).

(** [try: body except Exception as err: LOG.exception(err)]. *)
Definition logged (body : M unit) : M unit :=
  try_except body LOG_exception.

(** The builtin [isinstance(obj, cls)].  Its second argument must be a
    class; for anything else Python raises TypeError ("isinstance() arg 2
    must be a class, type, or tuple of classes and types"). *)
Definition isinstance (obj cls : PyValue) : M bool :=
  match cls with
  | VClass c =>
      ret (match obj with
            | VInstance c' => bool_decide (c' = c)
            | _ => false
            end)
  | _ => raise TypeError
  end.

(** [x.id]: a string and None have no such attribute. *)
Definition getattr_id `{Model A} (x : Ref A) : M ID :=
  match x with
  | RObj o => ret (row_id o)
  | _ => raise AttributeError
  end.

(** A value used as a column value in a filter or a constructor: None or
    a string; SQLAlchemy cannot bind a model object. *)
Definition bind_value {A} (x : Ref A) : M (option ID) :=
  match x with
  | RNone => ret None
  | RId s => ret (Some s)
  | RObj _ => raise InterfaceError
  end.

(** [if isinstance(sa_models.C, x): x = x.id], the two arguments of
    [isinstance] in the order the source writes them: the class first,
    the value second. *)
Definition id_of `{Model A} (x : Ref A) : M (option ID) :=
  b <- isinstance (VClass model_class) (ref_value x) ;;
  if b then (i <- getattr_id x ;; ret (Some i)) else bind_value x.

(** [context.session.add(obj)], per table. *)
Definition add_service (x : Service) (t : Tables) : Tables :=
  {| services := services t ++ [x]; categories := categories t;
     resources := resources t; usages := usages t; quotas := quotas t;
     reservations := reservations t; reserved_items := reserved_items t |}.

Definition add_category (x : Category) (t : Tables) : Tables :=
  {| services := services t; categories := categories t ++ [x];
     resources := resources t; usages := usages t; quotas := quotas t;
     reservations := reservations t; reserved_items := reserved_items t |}.

Definition add_resource (x : Resource) (t : Tables) : Tables :=
  {| services := services t; categories := categories t;
     resources := resources t ++ [x]; usages := usages t; quotas := quotas t;
     reservations := reservations t; reserved_items := reserved_items t |}.

Definition add_usage (x : Usage) (t : Tables) : Tables :=
  {| services := services t; categories := categories t;
     resources := resources t; usages := usages t ++ [x]; quotas := quotas t;
     reservations := reservations t; reserved_items := reserved_items t |}.

Definition add_quota (x : Quota) (t : Tables) : Tables :=
  {| services := services t; categories := categories t;
     resources := resources t; usages := usages t; quotas := quotas t ++ [x];
     reservations := reservations t; reserved_items := reserved_items t |}.

Definition add_reservation (x : Reservation) (t : Tables) : Tables :=
  {| services := services t; categories := categories t;
     resources := resources t; usages := usages t; quotas := quotas t;
     reservations := reservations t ++ [x];
     reserved_items := reserved_items t |}.

Definition add_reserved_item (x : ReservedItem) (t : Tables) : Tables :=
  {| services := services t; categories := categories t;
     resources := resources t; usages := usages t; quotas := quotas t;
     reservations := reservations t;
     reserved_items := reserved_items t ++ [x] |}.

Definition session_add (f : Tables -> Tables) : M unit := fun w =>
  (Returned tt, with_pending f w).

(** ** The operations of [API] *)

(** [commit(self, context)]: "End a transaction, committing the changes
    to the database." *)
Definition commit : M unit := fun w =>
  (Returned tt, with_session session_commit w).

(** [rollback(self, context)]: "End a transaction, rolling back the
    changes to the database." *)
Definition rollback : M unit := fun w =>
  (Returned tt, with_session session_rollback w).

(** [create_service(self, context, name, auth_fields)]. *)
Definition create_service (name : string) (auth_fields : FieldSet)
  : M Service :=
  all <- query services ;;
  let service := first (filter (fun s => s_name s = name) all) in
  logged
    (match service with
     | Some found =>
         LOG_error
           "Error in creating new service.Service of samename %s already present"
           [Some name] ;;
         raise (Duplicate CService (s_id found))
     | None => ret tt
     end) ;;
  id <- generate_uuid ;;
  created_at <- now ;;
  updated_at <- now ;;
  let new_service :=
    {| s_id := id; s_name := name; s_created_at := created_at;
       s_updated_at := updated_at; s_auth_fields := auth_fields |} in
  session_add (add_service new_service) ;;
  ret new_service.

(** [get_service(self, context, id=None, name=None, hints=None)]; the
    result None is Python's None, returned by falling off the end. *)
Definition get_service (id : option ID) (name : option string)
  : M (option Service) :=
  logged
    (if truthy id && negb (is_None name) then
       LOG_error
         "DB access error at service table.Valuesof both id and name are not allowed"
         [] ;;
       raise TypeError
     else if truthy id && is_None name then
       LOG_error
         "DB access error at service table.Null valuesof both id and name are not allowed"
         [] ;;
       raise TypeError
     else ret tt) ;;
  all <- query services ;;
  let service :=
    match id with
    | Some i => filter (fun s => s_id s = i) all
    | None => filter (fun s => Some (s_name s) = name) all
    end in
  match first service with
  | None =>
      logged
        (LOG_error "No matching service for %s found" [py_or id name] ;;
         raise (KeyError (py_or id name))) ;;
      ret None
  | Some found => ret (Some found)
  end.

(** Lines 220-239 of [create_category], after the argument has been
    replaced by an id. *)
Definition create_category_row (service : option ID) (name : string)
    (usage_fset : FieldSet) (quota_fsets : list FieldSet) : M Category :=
  all <- query categories ;;
  let category :=
    first (filter (fun c => c_name c = name /\ c_service_id c = service) all) in
  logged
    (match category with
     | Some found =>
         LOG_error
           "Error in creating new category.Category of samename %s for service %s is already present"
           [Some name; service] ;;
         raise (Duplicate CCategory (c_id found))
     | None => ret tt
     end) ;;
  id <- generate_uuid ;;
  created_at <- now ;;
  updated_at <- now ;;
  let new_category :=
    {| c_id := id; c_name := name; c_created_at := created_at;
       c_updated_at := updated_at; c_service_id := service;
       c_usage_fset := usage_fset; c_quota_fsets := quota_fsets |} in
  session_add (add_category new_category) ;;
  ret new_category.

(** [create_category(self, context, service, name, usage_fset,
    quota_fsets)]. *)
Definition create_category (service : Ref Service) (name : string)
    (usage_fset : FieldSet) (quota_fsets : list FieldSet) : M Category :=
  service <- id_of service ;;
  create_category_row service name usage_fset quota_fsets.

Definition is_RNone {A} (x : Ref A) : bool :=
  match x with RNone => true | _ => false end.

(** [get_category(self, context, id=None, service=None, name=None,
    hints=None)].  The natural-key branch filters on
    [sa_models.Service.id == service.id]: the query joins the services
    table, and [service] must be an object. *)
Definition get_category (id : option ID) (service : Ref Service)
    (name : option string) : M (option Category) :=
  logged
    (if truthy id && truthy name && negb (is_RNone service) then
       LOG_error
         "DB access error at categories table.Values of id,service and name altogether is not allowed"
         [] ;;
       raise TypeError
     else if truthy id && truthy name && is_RNone service then
       LOG_error
         "DB access error at categories table.Null values of id,service and name altogether is not allowed"
         [] ;;
       raise TypeError
     else ret tt) ;;
  all <- query categories ;;
  category <-
    match id with
    | Some i => ret (filter (fun c => c_id c = i) all)
    | None =>
        sid <- getattr_id service ;;
        joined <- query services ;;
        ret (if bool_decide (Exists (fun s => s_id s = sid) joined)
             then filter (fun c => Some (c_name c) = name) all
             else [])
    end ;;
  match first category with
  | None =>
      logged
        (LOG_error "No matching category found for %s" [py_or name id] ;;
         raise (KeyError (py_or id name))) ;;
      ret None
  | Some found => ret (Some found)
  end.

(** Lines 365-387 of [create_resource], after both arguments have been
    replaced by ids. *)
Definition create_resource_row (service category : option ID)
    (name : string) (parameters : FieldSet) (absolute : bool) : M Resource :=
  all <- query resources ;;
  let resource :=
    first (filter (fun r => r_name r = name /\ r_service_id r = service
                            /\ r_category_id r = category) all) in
  logged
    (match resource with
     | Some found =>
         LOG_error
           "Error in creating new resource.Resource of samename %s for service %s and category %s is alreadypresent"
           [Some name; service; category] ;;
         raise (Duplicate CResource (r_id found))
     | None => ret tt
     end) ;;
  id <- generate_uuid ;;
  created_at <- now ;;
  updated_at <- now ;;
  let new_resource :=
    {| r_id := id; r_name := name; r_parameters := parameters;
       r_created_at := created_at; r_updated_at := updated_at;
       r_service_id := service; r_category_id := category;
       r_absolute := absolute |} in
  session_add (add_resource new_resource) ;;
  ret new_resource.

(** [create_resource(self, context, service, category, name, parameters,
    absolute=False)]. *)
Definition create_resource (service : Ref Service) (category : Ref Category)
    (name : string) (parameters : FieldSet) (absolute : bool) : M Resource :=
  service <- id_of service ;;
  category <- id_of category ;;
  create_resource_row service category name parameters absolute.

(** Lines 420-447 of [get_resource]. *)
Definition get_resource_row (id service : option ID) (name : option string)
  : M (option Resource) :=
  logged
    (if truthy id && truthy name && negb (is_None service) then
       LOG_error
         "DB access error at resource table.Valuesof all id,name and service is not allowed "
         [] ;;
       raise TypeError
     else if truthy id && truthy name && is_None service then
       LOG_error
         "DB access error at resource table.Null valuesof all id,name and service is not allowed "
         [] ;;
       raise TypeError
     else ret tt) ;;
  all <- query resources ;;
  let resource :=
    match id with
    | Some i => filter (fun r => r_id r = i) all
    | None =>
        filter (fun r => Some (r_name r) = name /\ r_service_id r = service) all
    end in
  match first resource with
  | None =>
      logged
        (LOG_error "No matching resource found for requested %sresource"
           [py_or name id] ;;
         raise (KeyError (py_or id name))) ;;
      ret None
  | Some found => ret (Some found)
  end.

(** [get_resource(self, context, id=None, service=None, name=None,
    hints=None)]. *)
Definition get_resource (id : option ID) (service : Ref Service)
    (name : option string) : M (option Resource) :=
  service <- id_of service ;;
  get_resource_row id service name.

(** Lines 517-538 of [create_usage], after the argument has been
    replaced by an id.  The constructor call passes neither [used] nor
    [reserved]. *)
Definition create_usage_row (resource : option ID) (param_data auth_data : Data)
    (used reserved until_refresh : Z) (refresh_id : option ID) : M Usage :=
  all <- query usages ;;
  let usage :=
    first (filter (fun u => u_resource_id u = resource
                            /\ u_auth_data u = auth_data
                            /\ u_parameter_data u = param_data) all) in
  logged
    (match usage with
     | Some found =>
         LOG_error
           "Error in creating new usage.Usage for sameresource %s is already present"
           [resource] ;;
         raise (Duplicate CUsage (u_id found))
     | None => ret tt
     end) ;;
  id <- generate_uuid ;;
  created_at <- now ;;
  updated_at <- now ;;
  let new_usage :=
    {| u_id := id; u_created_at := created_at; u_updated_at := updated_at;
       u_parameter_data := param_data; u_auth_data := auth_data;
       u_resource_id := resource; u_used := None; u_reserved := None;
       u_until_refresh := until_refresh; u_refresh_id := refresh_id |} in
  session_add (add_usage new_usage) ;;
  ret new_usage.

(** [create_usage(self, context, resource, param_data, auth_data, used=0,
    reserved=0, until_refresh=0, refresh_id=None)]. *)
Definition create_usage (resource : Ref Resource) (param_data auth_data : Data)
    (used reserved until_refresh : Z) (refresh_id : option ID) : M Usage :=
  resource <- id_of resource ;;
  create_usage_row resource param_data auth_data used reserved until_refresh
    refresh_id.

(** Lines 576-605 of [get_usage]. *)
Definition get_usage_row (id resource : option ID)
    (param_data auth_data : option Data) : M (option Usage) :=
  logged
    (if truthy id && truthy resource && truthy_dict param_data
        && negb (is_None auth_data) then
       LOG_error
         "DB access error at usage table.Values for id,resource,param_data and auth_data altogetheris not allowed"
         [] ;;
       raise TypeError
     else if truthy id && truthy resource && truthy_dict param_data
             && is_None auth_data then
       LOG_error
         "DB access error at usage table.Null values forid,resource,param_data and auth_data altogetheris not allowed"
         [] ;;
       raise TypeError
     else ret tt) ;;
  all <- query usages ;;
  let usage :=
    match id with
    | Some i => filter (fun u => u_id u = i) all
    | None =>
        filter (fun u => u_resource_id u = resource
                         /\ Some (u_parameter_data u) = param_data
                         /\ Some (u_auth_data u) = auth_data) all
    end in
  match first usage with
  | None =>
      logged
        (LOG_error "No matching usage found for %s" [py_or id resource] ;;
         raise (KeyError (py_or id resource))) ;;
      ret None
  | Some found => ret (Some found)
  end.

(** [get_usage(self, context, id=None, resource=None, param_data=None,
    auth_data=None, hints=None)]. *)
Definition get_usage (id : option ID) (resource : Ref Resource)
    (param_data auth_data : option Data) : M (option Usage) :=
  resource <- id_of resource ;;
  get_usage_row id resource param_data auth_data.

(** Lines 661-680 of [create_quota], after the argument has been
    replaced by an id.  The constructor call spells the keyword
    [resorce_id]. *)
Definition create_quota_row (resource : option ID) (auth_data : Data)
    (limit : option Z) : M Quota :=
  all <- query quotas ;;
  let quota :=
    first (filter (fun q => q_resource_id q = resource
                            /\ q_auth_data q = auth_data) all) in
  logged
    (match quota with
     | Some found =>
         LOG_error
           "Error in creating new quota.Quota for sameresource %s is already present"
           [resource] ;;
         raise (Duplicate CQuota (q_id found))
     | None => ret tt
     end) ;;
  id <- generate_uuid ;;
  created_at <- now ;;
  updated_at <- now ;;
  new_quota <-
    unknown_keyword
      {| q_id := id; q_created_at := created_at; q_updated_at := updated_at;
         q_resource_id := None; q_resorce_id := resource;
         q_auth_data := auth_data; q_limit := limit |} ;;
  session_add (add_quota new_quota) ;;
  ret new_quota.

(** [create_quota(self, context, resource, auth_data, limit=None)]. *)
Definition create_quota (resource : Ref Resource) (auth_data : Data)
    (limit : option Z) : M Quota :=
  resource <- id_of resource ;;
  create_quota_row resource auth_data limit.

(** Lines 716-741 of [get_quota]. *)
Definition get_quota_row (id resource : option ID) (auth_data : option Data)
  : M (option Quota) :=
  logged
    (if truthy id && truthy resource && negb (is_None auth_data) then
       LOG_error
         "DB access error at quota table.Values for id,resource and auth_data altogether is not allowed"
         [] ;;
       raise TypeError
     else if truthy id && truthy resource && is_None auth_data then
       LOG_error
         "DB access error at quota table.Values for id,resource and auth_data altogether is not allowed"
         [] ;;
       raise TypeError
     else ret tt) ;;
  all <- query quotas ;;
  let quota :=
    match id with
    | Some i => filter (fun q => q_id q = i) all
    | None =>
        filter (fun q => q_resource_id q = resource
                         /\ Some (q_auth_data q) = auth_data) all
    end in
  match first quota with
  | None =>
      logged
        (LOG_error "No matching quota found for %s" [py_or id resource] ;;
         raise (KeyError (py_or id resource))) ;;
      ret None
  | Some found => ret (Some found)
  end.

(** [get_quota(self, context, id=None, resource=None, auth_data=None,
    hints=None)]. *)
Definition get_quota (id : option ID) (resource : Ref Resource)
    (auth_data : option Data) : M (option Quota) :=
  resource <- id_of resource ;;
  get_quota_row id resource auth_data.

(** [create_reservation(self, context, expire)]. *)
Definition create_reservation (expire : Time) : M Reservation :=
  id <- generate_uuid ;;
  created_at <- now ;;
  updated_at <- now ;;
  let new_reservation :=
    {| v_id := id; v_created_at := created_at; v_updated_at := updated_at;
       v_expire := expire; v_status := None |} in
  session_add (add_reservation new_reservation) ;;
  ret new_reservation.

(** Lines 818-826 of [reserve], after the three arguments have been
    replaced by ids.  The constructor call spells the keyword
    [resorce_id]. *)
Definition reserve_row (reservation resource usage : option ID) (delta : Z)
  : M ReservedItem :=
  id <- generate_uuid ;;
  created_at <- now ;;
  updated_at <- now ;;
  new_reserved_items <-
    unknown_keyword
      {| i_id := id; i_created_at := created_at; i_updated_at := updated_at;
         i_reservation_id := reservation; i_resource_id := None;
         i_resorce_id := resource; i_usage_id := usage; i_delta := delta |} ;;
  session_add (add_reserved_item new_reserved_items) ;;
  ret new_reserved_items.

(** [reserve(self, context, reservation, resource, usage, delta)]. *)
Definition reserve (reservation : Ref Reservation) (resource : Ref Resource)
    (usage : Ref Usage) (delta : Z) : M ReservedItem :=
  reservation <- id_of reservation ;;
  resource <- id_of resource ;;
  usage <- id_of usage ;;
  reserve_row reservation resource usage delta.

(** ** The vocabulary of the specification *)

(** The error kinds of the specification and the exception that reports
    each one: the docstrings promise "a TypeError will be raised" for an
    invalid combination of arguments, "a KeyError will be raised" when
    nothing matches, and "Raises a Duplicate exception".  Nothing in the
    module stands for OverQuota or InvalidState. *)
Inductive ErrorKind :=
  | EDuplicate | EInvalidArguments | ENotFound | EOverQuota | EInvalidState.

Definition kind_of (e : exn) : option ErrorKind :=
  match e with
  | TypeError => Some EInvalidArguments
  | KeyError _ => Some ENotFound
  | Duplicate _ _ => Some EDuplicate
  | AttributeError | InterfaceError => None
  end.

Definition fails_with {A} (k : ErrorKind) (o : Outcome A) : Prop :=
  match o with
  | Raised e => kind_of e = Some k
  | Returned _ => False
  end.

(** A counter that no constructor call has set reads as 0. *)
Definition used_of (u : Usage) : Z := default 0 (u_used u).
Definition reserved_of (u : Usage) : Z := default 0 (u_reserved u).

Definition usage_by_id (s : Session) (id : ID) : option Usage :=
  first (filter (fun u => u_id u = id) (rows usages s)).

Definition reservation_by_id (s : Session) (id : ID) : option Reservation :=
  first (filter (fun v => v_id v = id) (rows reservations s)).

(** The id an object-or-id argument stands for. *)
Definition ref_id `{Model A} (x : Ref A) : option ID :=
  match x with
  | RNone => None
  | RId s => Some s
  | RObj o => Some (row_id o)
  end.

(** The sum of the deltas the items of [reservation] hold against the
    Usage row [usage]. *)
Definition delta_sum (s : Session) (reservation usage : ID) : Z :=
  foldr Z.add 0
    (i_delta <$>
       filter (fun i => i_reservation_id i = Some reservation
                        /\ i_usage_id i = Some usage)
         (rows reserved_items s)).

(** Quota resolution in the spec's words (4.3): for each field-set of
    [quota_fsets], from index 0 onward, project [auth_data] onto it and
    look up a Quota row keyed by the resource and the projection; the
    first field-set that yields a match wins. *)
Definition project (fset : FieldSet) (auth_data : Data) : Data :=
  filter (fun kv => kv.1 ∈ fset) auth_data.

Fixpoint resolve_quota (all : list Quota) (resource : ID) (auth_data : Data)
    (quota_fsets : list FieldSet) : option Quota :=
  match quota_fsets with
  | [] => None
  | fset :: less_specific =>
      match first (filter (fun q => q_resource_id q = Some resource
                                    /\ q_auth_data q = project fset auth_data)
                     all) with
      | Some q => Some q
      | None => resolve_quota all resource auth_data less_specific
      end
  end.

(** The limit the spec resolves for a resource and a caller: that of the
    matching Quota row, None (unlimited) when no field-set matches. *)
Definition resolved_limit (s : Session) (resource : ID) (auth_data : Data)
  : option Z :=
  r ← first (filter (fun r => r_id r = resource) (rows resources s));
  cid ← r_category_id r;
  c ← first (filter (fun c => c_id c = cid) (rows categories s));
  q ← resolve_quota (rows quotas s) resource auth_data (c_quota_fsets c);
  q_limit q.

(** The spec's check for a non-absolute resource fails when
    [used + reserved + delta] exceeds the limit. *)
Definition exceeds (u : Usage) (delta : Z) (limit : option Z) : bool :=
  match limit with
  | Some l => bool_decide (l < used_of u + reserved_of u + delta)
  | None => false
  end.

(** ** A ledger to run the operations on

    One service, one category whose [quota_fsets] is
    [[{tenant_id}, {}]], one resource, a quota of 5 for tenant T1 and a
    default quota of 10, a Usage row for T1 with 3 used and 1 reserved,
    and a reservation holding that 1; everything committed. *)

Definition uuids (n : nat) : ID := "uuid-" +:+ pretty n.

Definition T1 : Data := {[ "tenant_id" := "T1" ]}.

Definition nova : Service :=
  {| s_id := "svc-1"; s_name := "nova"; s_created_at := 0%nat;
     s_updated_at := 0%nat; s_auth_fields := ["tenant_id"; "user_id"] |}.

Definition compute : Category :=
  {| c_id := "cat-1"; c_name := "compute"; c_created_at := 0%nat;
     c_updated_at := 0%nat; c_service_id := Some "svc-1";
     c_usage_fset := ["tenant_id"]; c_quota_fsets := [["tenant_id"]; []] |}.

Definition instances : Resource :=
  {| r_id := "res-1"; r_name := "instances"; r_parameters := [];
     r_created_at := 0%nat; r_updated_at := 0%nat;
     r_service_id := Some "svc-1"; r_category_id := Some "cat-1";
     r_absolute := false |}.

Definition usage_T1 : Usage :=
  {| u_id := "usage-1"; u_created_at := 0%nat; u_updated_at := 0%nat;
     u_parameter_data := ∅; u_auth_data := T1;
     u_resource_id := Some "res-1"; u_used := Some 3; u_reserved := Some 1;
     u_until_refresh := 0; u_refresh_id := None |}.

Definition quota_T1 : Quota :=
  {| q_id := "quota-1"; q_created_at := 0%nat; q_updated_at := 0%nat;
     q_resource_id := Some "res-1"; q_resorce_id := None;
     q_auth_data := T1; q_limit := Some 5 |}.

Definition quota_default : Quota :=
  {| q_id := "quota-2"; q_created_at := 0%nat; q_updated_at := 0%nat;
     q_resource_id := Some "res-1"; q_resorce_id := None;
     q_auth_data := ∅; q_limit := Some 10 |}.

Definition held : Reservation :=
  {| v_id := "resv-1"; v_created_at := 0%nat; v_updated_at := 0%nat;
     v_expire := 100%nat; v_status := Some PENDING |}.

Definition held_item : ReservedItem :=
  {| i_id := "item-1"; i_created_at := 0%nat; i_updated_at := 0%nat;
     i_reservation_id := Some "resv-1"; i_resource_id := Some "res-1";
     i_resorce_id := None; i_usage_id := Some "usage-1"; i_delta := 1 |}.

Definition ledger_rows : Tables :=
  {| services := [nova]; categories := [compute]; resources := [instances];
     usages := [usage_T1]; quotas := [quota_T1; quota_default];
     reservations := [held]; reserved_items := [held_item] |}.

Definition world_of (t : Tables) (strict : bool) : World :=
  {| session := {| committed := t; pending := no_rows |}; log := [];
     uuid_of := uuids; uuids_drawn := 0%nat;
     time_at := fun n => n; clock_reads := 0%nat;
     kwargs_checked := strict |}.

Definition empty_ledger : World := world_of no_rows true.
Definition ledger : World := world_of ledger_rows true.
Definition lenient_ledger : World := world_of ledger_rows false.

(** ** The claims of the specification, as it states them *)

(** reserve: when [used + reserved + delta] of the target Usage exceeds
    the resolved limit the call fails with OverQuota and changes
    nothing; otherwise an item with the given delta is attached and the
    Usage row's [reserved] grows by [delta]. *)
Definition reserve_claim (w : World) (reservation : Ref Reservation)
    (resource : Ref Resource) (usage : Ref Usage) (delta : Z) : Prop :=
  forall rid uid u,
    ref_id resource = Some rid ->
    ref_id usage = Some uid ->
    usage_by_id (session w) uid = Some u ->
    let out := reserve reservation resource usage delta w in
    if exceeds u delta (resolved_limit (session w) rid (u_auth_data u))
    then fails_with EOverQuota out.1 /\ session out.2 = session w
    else exists item u',
        out.1 = Returned item /\ i_delta item = delta
        /\ item ∈ rows reserved_items (session out.2)
        /\ usage_by_id (session out.2) uid = Some u'
        /\ reserved_of u' = reserved_of u + delta.

(** commit: every Usage row gains in [used], and loses in [reserved],
    the sum of the deltas the reservation holds against it, and the
    reservation is marked COMMITTED. *)
Definition commit_claim (w : World) (reservation : ID) : Prop :=
  let w' := (commit w).2 in
  (forall u, u ∈ rows usages (session w) ->
     exists u', usage_by_id (session w') (u_id u) = Some u'
       /\ used_of u' = used_of u + delta_sum (session w) reservation (u_id u)
       /\ reserved_of u'
          = reserved_of u - delta_sum (session w) reservation (u_id u))
  /\ exists v, reservation_by_id (session w') reservation = Some v
       /\ v_status v = Some COMMITTED.

(** rollback: every Usage row loses in [reserved] the sum of the deltas
    the reservation holds against it, keeps [used], and the reservation
    is marked ROLLED_BACK. *)
Definition rollback_claim (w : World) (reservation : ID) : Prop :=
  let w' := (rollback w).2 in
  (forall u, u ∈ rows usages (session w) ->
     exists u', usage_by_id (session w') (u_id u) = Some u'
       /\ used_of u' = used_of u
       /\ reserved_of u'
          = reserved_of u - delta_sum (session w) reservation (u_id u))
  /\ exists v, reservation_by_id (session w') reservation = Some v
       /\ v_status v = Some ROLLED_BACK.

(** Quota resolution through [get_quota]: the call yields the limit the
    field-set walk resolves, None when no field-set matches. *)
Definition resolution_claim (w : World) (resource : ID) (auth_data : Data)
  : Prop :=
  exists found,
    (get_quota None (RId resource) (Some auth_data) w).1 = Returned found
    /\ found ≫= q_limit = resolved_limit (session w) resource auth_data.


(** ** The remaining operations of [API] *)

(** [begin(self, context)]: its body is [pass]. *)
Definition begin : M unit := ret tt.

(** What [get_reservation] hands back: a row, None, or, when it is given
    no id, the query it never ran. *)
Inductive Fetched (A : Type) :=
  | FetchedRow (a : A)
  | FetchedNone
  | QueryObject.
Arguments FetchedRow {A} a.
Arguments FetchedNone {A}.
Arguments QueryObject {A}.

(** [get_reservation(self, context, id, hints=None)].  The test before
    the logged KeyError is [reservation is not None]. *)
Definition get_reservation (id : option ID) : M (Fetched Reservation) :=
  all <- query reservations ;;
  let reservation :=
    match id with
    | Some i =>
        match first (filter (fun v => v_id v = i) all) with
        | Some found => FetchedRow found
        | None => FetchedNone
        end
    | None => QueryObject
    end in
  match reservation with
  | FetchedNone => ret tt
  | _ =>
      logged
        (LOG_error "No matching reservation found for %s id" [id] ;;
         raise (KeyError id))
  end ;;
  ret reservation.

(** [_save(self, context, base_obj)]: its body is
    [context.session.commit()], whatever [base_obj] is. *)
Definition _save {A} (base_obj : A) : M unit := fun w =>
  (Returned tt, with_session session_commit w).

(** ** Callers

    A caller is a script of calls; [perform] runs one call and keeps the
    world it leaves, whether the call returned or raised. *)
Inductive Call :=
  | Call_begin
  | Call_commit
  | Call_rollback
  | Call_save
  | Call_create_service (name : string) (auth_fields : FieldSet)
  | Call_get_service (id : option ID) (name : option string)
  | Call_create_category (service : Ref Service) (name : string)
      (usage_fset : FieldSet) (quota_fsets : list FieldSet)
  | Call_get_category (id : option ID) (service : Ref Service)
      (name : option string)
  | Call_create_resource (service : Ref Service) (category : Ref Category)
      (name : string) (parameters : FieldSet) (absolute : bool)
  | Call_get_resource (id : option ID) (service : Ref Service)
      (name : option string)
  | Call_create_usage (resource : Ref Resource) (param_data auth_data : Data)
      (used reserved until_refresh : Z) (refresh_id : option ID)
  | Call_get_usage (id : option ID) (resource : Ref Resource)
      (param_data auth_data : option Data)
  | Call_create_quota (resource : Ref Resource) (auth_data : Data)
      (limit : option Z)
  | Call_get_quota (id : option ID) (resource : Ref Resource)
      (auth_data : option Data)
  | Call_create_reservation (expire : Time)
  | Call_reserve (reservation : Ref Reservation) (resource : Ref Resource)
      (usage : Ref Usage) (delta : Z)
  | Call_get_reservation (id : option ID).

Definition perform (c : Call) (w : World) : World :=
  match c with
  | Call_begin => (begin w).2
  | Call_commit => (commit w).2
  | Call_rollback => (rollback w).2
  | Call_save => (_save tt w).2
  | Call_create_service name auth_fields =>
      (create_service name auth_fields w).2
  | Call_get_service id name => (get_service id name w).2
  | Call_create_category service name usage_fset quota_fsets =>
      (create_category service name usage_fset quota_fsets w).2
  | Call_get_category id service name => (get_category id service name w).2
  | Call_create_resource service category name parameters absolute =>
      (create_resource service category name parameters absolute w).2
  | Call_get_resource id service name => (get_resource id service name w).2
  | Call_create_usage resource pd ad used reserved until_refresh refresh_id =>
      (create_usage resource pd ad used reserved until_refresh refresh_id w).2
  | Call_get_usage id resource pd ad => (get_usage id resource pd ad w).2
  | Call_create_quota resource ad limit =>
      (create_quota resource ad limit w).2
  | Call_get_quota id resource ad => (get_quota id resource ad w).2
  | Call_create_reservation expire => (create_reservation expire w).2
  | Call_reserve reservation resource usage delta =>
      (reserve reservation resource usage delta w).2
  | Call_get_reservation id => (get_reservation id w).2
  end.

Definition perform_all (script : list Call) (w : World) : World :=
  foldl (fun w c => perform c w) w script.

(** Whether a call ends the transaction by committing. *)
Definition commits (c : Call) : bool :=
  match c with
  | Call_commit | Call_save => true
  | _ => false
  end.

(** The world after [LOG] has received [extra] and nothing else has
    happened. *)
Definition logging (extra : list LogRecord) (w : World) : World :=
  {| session := session w; log := log w ++ extra;
     uuid_of := uuid_of w; uuids_drawn := uuids_drawn w;
     time_at := time_at w; clock_reads := clock_reads w;
     kwargs_checked := kwargs_checked w |}.


(** A second service, which owns no category. *)
Definition glance : Service :=
  {| s_id := "svc-2"; s_name := "glance"; s_created_at := 0%nat;
     s_updated_at := 0%nat; s_auth_fields := ["tenant_id"] |}.

Definition two_services : World :=
  world_of
    {| services := [nova; glance]; categories := [compute];
       resources := [instances]; usages := [usage_T1];
       quotas := [quota_T1; quota_default]; reservations := [held];
       reserved_items := [held_item] |} true.

(** ** How the operations run *)

Ltac run :=
  cbv [bind ret raise logged try_except LOG_error LOG_exception emit
       query generate_uuid now unknown_keyword session_add with_pending
       with_session].

(** With the class in first place, [isinstance] raises whatever the
    argument is: an id, an object, or None. *)
Lemma isinstance_class_first `{Model A} (x : Ref A) (w : World) :
  isinstance (VClass model_class) (ref_value x) w = (Raised TypeError, w).
Proof. destruct x; reflexivity. Qed.

Lemma id_of_raises `{Model A} (x : Ref A) (w : World) :
  id_of x w = (Raised TypeError, w).
Proof. unfold id_of, bind. rewrite isinstance_class_first. reflexivity. Qed.

(** Every operation that opens with that test stops there. *)
Lemma create_category_raises service name usage_fset quota_fsets w :
  create_category service name usage_fset quota_fsets w
  = (Raised TypeError, w).
Proof. unfold create_category, bind. now rewrite id_of_raises. Qed.

Lemma create_resource_raises service category name parameters absolute w :
  create_resource service category name parameters absolute w
  = (Raised TypeError, w).
Proof. unfold create_resource, bind. now rewrite id_of_raises. Qed.

Lemma get_resource_raises id service name w :
  get_resource id service name w = (Raised TypeError, w).
Proof. unfold get_resource, bind. now rewrite id_of_raises. Qed.

Lemma create_usage_raises resource pd ad used reserved until_refresh rid w :
  create_usage resource pd ad used reserved until_refresh rid w
  = (Raised TypeError, w).
Proof. unfold create_usage, bind. now rewrite id_of_raises. Qed.

Lemma get_usage_raises id resource pd ad w :
  get_usage id resource pd ad w = (Raised TypeError, w).
Proof. unfold get_usage, bind. now rewrite id_of_raises. Qed.

Lemma create_quota_raises resource ad limit w :
  create_quota resource ad limit w = (Raised TypeError, w).
Proof. unfold create_quota, bind. now rewrite id_of_raises. Qed.

Lemma get_quota_raises id resource ad w :
  get_quota id resource ad w = (Raised TypeError, w).
Proof. unfold get_quota, bind. now rewrite id_of_raises. Qed.

Lemma reserve_raises reservation resource usage delta w :
  reserve reservation resource usage delta w = (Raised TypeError, w).
Proof. unfold reserve, bind. now rewrite id_of_raises. Qed.

(** The guarded check of [create_service] swallows its own Duplicate:
    the call always returns a new row and appends it. *)
Lemma create_service_always_inserts name auth_fields w :
  exists s,
    (create_service name auth_fields w).1 = Returned s
    /\ s_name s = name
    /\ rows services (session (create_service name auth_fields w).2)
       = rows services (session w) ++ [s].
Proof.
  unfold create_service. run.
  destruct (first (filter (fun s => s_name s = name) (rows services _)));
    cbn; eexists; (split; [reflexivity|]); (split; [reflexivity|]);
    unfold rows; cbn; now rewrite app_assoc.
Qed.

(** [get_service] never raises: both of its checks and its KeyError are
    caught and logged. *)
Lemma get_service_never_raises id name w :
  exists found, (get_service id name w).1 = Returned found.
Proof.
  unfold get_service. run.
  destruct (truthy id && negb (is_None name));
    [|destruct (truthy id && is_None name)]; cbn;
    match goal with |- context [first ?l] => destruct (first l) end;
    cbn; eexists; reflexivity.
Qed.

(** The row-building step of [create_usage] never stores the counters
    it is given. *)
Lemma create_usage_row_ignores_counters
    resource pd ad used reserved until_refresh refresh_id w :
  exists u,
    (create_usage_row resource pd ad used reserved until_refresh refresh_id
       w).1 = Returned u
    /\ u_used u = None /\ u_reserved u = None
    /\ u_until_refresh u = until_refresh /\ u_refresh_id u = refresh_id.
Proof.
  unfold create_usage_row. run.
  match goal with |- context [first ?l] => destruct (first l) end;
    cbn; eexists; repeat split; reflexivity.
Qed.

(** On the spec's own example the field-set walk resolves the tenant's
    quota, 5, and not the default, 10. *)
Example resolved_limit_tenant :
  resolved_limit (session ledger) "res-1" T1 = Some 5.
Proof. vm_compute. reflexivity. Qed.

Example resolved_limit_tenant_and_user :
  resolved_limit (session ledger) "res-1" (<["user_id" := "U1"]> T1) = Some 5.
Proof. vm_compute. reflexivity. Qed.

(** ** The reservation operations *)

(** C1, as the spec states it, fails: on the ledger, tenant T1 has 3
    used and 1 reserved against a resolved limit of 5; reserving 5 more
    exceeds it, and the call does not fail with OverQuota. *)
Lemma reserve_claim_fails :
  ~ reserve_claim ledger (RId "resv-1") (RId "res-1") (RId "usage-1") 5.
Proof.
  intros H.
  specialize (H "res-1" "usage-1" usage_T1 eq_refl eq_refl eq_refl).
  vm_compute in H. destruct H as [H _]. discriminate H.
Qed.

(** C1, amended: [reserve] makes no quota check and does not touch the
    Usage row.  Whatever [used + reserved + delta] and the limit are,
    the call never fails with OverQuota and leaves every Usage row, its
    [reserved] included, as it was; so does its row-building step
    (lines 818-826) on its own, and an item that step returns carries
    the given delta, reservation and usage and has been added to the
    session. *)
Theorem reserve_makes_no_quota_check :
  forall (w : World) (delta : Z),
    (forall reservation resource usage,
        let out := reserve reservation resource usage delta w in
        ~ fails_with EOverQuota out.1
        /\ rows usages (session out.2) = rows usages (session w))
    /\ (forall reservation resource usage,
          let out := reserve_row reservation resource usage delta w in
          ~ fails_with EOverQuota out.1
          /\ rows usages (session out.2) = rows usages (session w))
    /\ (forall reservation resource usage item,
          let out := reserve_row reservation resource usage delta w in
          out.1 = Returned item ->
          i_delta item = delta
          /\ i_reservation_id item = reservation
          /\ i_usage_id item = usage
          /\ rows reserved_items (session out.2)
             = rows reserved_items (session w) ++ [item]).
Proof.
  intros w delta. split; [|split]; intros reservation resource usage.
  - rewrite reserve_raises. cbn. split; [discriminate | reflexivity].
  - unfold reserve_row. run. destruct w as [s l uo ud ta cr [|]]; cbn.
    + split; [discriminate | reflexivity].
    + split; [tauto | reflexivity].
  - intros item. unfold reserve_row. run.
    destruct w as [s l uo ud ta cr [|]]; cbn; [discriminate|].
    intros [= <-]. unfold rows. cbn. now rewrite app_assoc.
Qed.

(** On the lenient ledger the row-building step returns an item for a
    delta of 5 that overruns the tenant's limit. *)
Lemma reserve_makes_no_quota_check_witness :
  exists item,
    (reserve_row (Some "resv-1") (Some "res-1") (Some "usage-1") 5
       lenient_ledger).1 = Returned item
    /\ i_delta item = 5
    /\ i_reservation_id item = Some "resv-1"
    /\ i_usage_id item = Some "usage-1"
    /\ rows reserved_items
         (session
            (reserve_row (Some "resv-1") (Some "res-1") (Some "usage-1") 5
               lenient_ledger).2)
       = rows reserved_items (session lenient_ledger) ++ [item].
Proof.
  eexists. split; [reflexivity|].
  apply (proj2 (proj2 (reserve_makes_no_quota_check lenient_ledger 5))).
  reflexivity.
Defined.

(** C2, as the spec states it, fails: committing on the ledger leaves
    the Usage row of T1 at 3 used and 1 reserved, where the claim wants
    the reservation's delta of 1 moved into [used]. *)
Lemma commit_claim_fails : ~ commit_claim ledger "resv-1".
Proof.
  intros [H _].
  destruct (H usage_T1) as (u' & Hu & Hused & _).
  - cbn. apply list_elem_of_here.
  - vm_compute in Hu. injection Hu as <-. vm_compute in Hused.
    discriminate Hused.
Qed.

(** C2, amended: [commit(context)] takes no reservation; it ends the
    transaction by committing the session.  The rows added since the
    transaction began join the committed ones, all together; no Usage
    row, Reservation or ReservedItem changes, so no delta moves from
    [reserved] to [used] and no reservation is marked COMMITTED. *)
Theorem commit_ends_transaction :
  forall w : World,
    let w' := (commit w).2 in
    (commit w).1 = Returned tt
    /\ committed (session w')
       = tables_app (committed (session w)) (pending (session w))
    /\ pending (session w') = no_rows
    /\ rows usages (session w') = rows usages (session w)
    /\ rows reservations (session w') = rows reservations (session w)
    /\ rows reserved_items (session w') = rows reserved_items (session w).
Proof.
  intros w. cbn. unfold rows. cbn. rewrite !app_nil_r. repeat split.
Qed.

(** C6, as the spec states it, fails: rolling back on the ledger leaves
    the Usage row of T1 with 1 reserved, where the claim wants the
    reservation's delta of 1 taken off. *)
Lemma rollback_claim_fails : ~ rollback_claim ledger "resv-1".
Proof.
  intros [H _].
  destruct (H usage_T1) as (u' & Hu & _ & Hreserved).
  - cbn. apply list_elem_of_here.
  - vm_compute in Hu. injection Hu as <-. vm_compute in Hreserved.
    discriminate Hreserved.
Qed.

(** C6, amended: [rollback(context)] takes no reservation; it ends the
    transaction by rolling the session back.  The rows added since the
    transaction began are dropped and the committed rows stay as they
    are: every committed Usage row keeps both [used] and [reserved], and
    no reservation is marked ROLLED_BACK. *)
Theorem rollback_ends_transaction :
  forall w : World,
    let w' := (rollback w).2 in
    (rollback w).1 = Returned tt
    /\ committed (session w') = committed (session w)
    /\ pending (session w') = no_rows
    /\ rows usages (session w') = usages (committed (session w))
    /\ rows reservations (session w')
       = reservations (committed (session w))
    /\ rows reserved_items (session w')
       = reserved_items (committed (session w)).
Proof.
  intros w. cbn. unfold rows. cbn. rewrite !app_nil_r. repeat split.
Qed.


(** ** The create operations *)

(** C3: the code breaks it.  [create_service] called twice with the name
    nova returns a row both times and leaves two rows of that name: the
    Duplicate it raises on the second call is caught by its own
    [except] and only logged.  [create_usage] called twice with one
    fingerprint raises TypeError both times and inserts nothing; its
    row-building step, run twice, inserts two rows. *)
Theorem create_twice_is_not_Duplicate :
  (let once := create_service "nova" ["tenant_id"] empty_ledger in
   let twice := create_service "nova" ["tenant_id"] once.2 in
   exists s1 s2,
     once.1 = Returned s1 /\ twice.1 = Returned s2
     /\ s_name s1 = "nova" /\ s_name s2 = "nova"
     /\ rows services (session twice.2) = [s1; s2]
     /\ ExceptionRecord (Duplicate CService (s_id s1)) ∈ log twice.2)
  /\ (let once := create_usage (RId "res-1") ∅ T1 0 0 0 None empty_ledger in
      let twice := create_usage (RId "res-1") ∅ T1 0 0 0 None once.2 in
      once.1 = Raised TypeError /\ twice.1 = Raised TypeError
      /\ rows usages (session twice.2) = [])
  /\ (let once := create_usage_row (Some "res-1") ∅ T1 0 0 0 None
                    empty_ledger in
      let twice := create_usage_row (Some "res-1") ∅ T1 0 0 0 None once.2 in
      exists u1 u2,
        once.1 = Returned u1 /\ twice.1 = Returned u2
        /\ rows usages (session twice.2) = [u1; u2]).
Proof.
  split; [|split].
  - eexists _, _. repeat split; try reflexivity.
    vm_compute. apply list_elem_of_further, list_elem_of_here.
  - rewrite !create_usage_raises. repeat split.
  - eexists _, _. repeat split; reflexivity.
Qed.


(** C8: the code breaks it.  [create_category] raises TypeError for the
    Service object and for its bare id alike, the argument never being
    replaced by an id; so do [create_resource] and [reserve].
    [get_category], which reads [service.id] without a test, finds the
    category for the object and raises AttributeError for the id. *)
Theorem object_or_id_is_not_normalised :
  (create_category (RObj nova) "storage" [] [[]] ledger).1 = Raised TypeError
  /\ (create_category (RId "svc-1") "storage" [] [[]] ledger).1
     = Raised TypeError
  /\ (create_resource (RObj nova) (RObj compute) "volumes" [] false ledger).1
     = Raised TypeError
  /\ (reserve (RObj held) (RObj instances) (RObj usage_T1) 1 ledger).1
     = Raised TypeError
  /\ (get_category None (RObj nova) (Some "compute") ledger).1
     = Returned (Some compute)
  /\ (get_category None (RId "svc-1") (Some "compute") ledger).1
     = Raised AttributeError.
Proof.
  rewrite !create_category_raises, create_resource_raises, reserve_raises.
  repeat split.
Qed.

(** ** The get operations *)

(** C4: the code breaks it.  On the ledger, [get_service] with both an
    id and a name, with neither, and with an id no row has, returns
    None each time: the TypeError and the KeyError it raises are caught
    by its own [except] and only logged; with the id and a name of an
    existing row supplied together it returns the row. *)
Theorem get_service_swallows_its_errors :
  (get_service (Some "X") (Some "Y") ledger).1 = Returned None
  /\ (get_service None None ledger).1 = Returned None
  /\ (get_service (Some "nonexistent") None ledger).1 = Returned None
  /\ (get_service (Some "svc-1") (Some "nova") ledger).1
     = Returned (Some nova)
  /\ ExceptionRecord TypeError
     ∈ log (get_service (Some "X") (Some "Y") ledger).2
  /\ ExceptionRecord (KeyError (Some "nonexistent"))
     ∈ log (get_service (Some "nonexistent") None ledger).2.
Proof.
  repeat split; try reflexivity; vm_compute.
  - apply list_elem_of_further, list_elem_of_here.
  - do 3 apply list_elem_of_further. apply list_elem_of_here.
Qed.

(** C5, as the spec states it, fails: for the resource of the ledger
    and a caller known by tenant T1 and user U1, the field-set walk
    resolves the tenant's limit of 5, and [get_quota] yields no limit. *)
Lemma resolution_claim_fails :
  ~ resolution_claim ledger "res-1" (<["user_id" := "U1"]> T1).
Proof.
  intros (found & H & _). rewrite get_quota_raises in H. discriminate H.
Qed.

(** C5, amended: the lookup of [get_quota] (lines 716-741) walks no
    field-sets and projects nothing.  Given an id it takes the first
    Quota row with that id; otherwise the first whose resource_id and
    whole auth_data equal the arguments; with no such row it yields
    None, no Quota at all; the session is left as it was. *)
Theorem get_quota_row_is_an_exact_match :
  forall (w : World) (id resource : option ID) (auth_data : option Data),
    let out := get_quota_row id resource auth_data w in
    let all := rows quotas (session w) in
    out.1 = Returned
              (first
                 match id with
                 | Some i => filter (fun q => q_id q = i) all
                 | None =>
                     filter (fun q => q_resource_id q = resource
                                      /\ Some (q_auth_data q) = auth_data)
                       all
                 end)
    /\ session out.2 = session w.
Proof.
  intros w id resource auth_data. unfold get_quota_row. run.
  destruct (truthy id && truthy resource && negb (is_None auth_data));
    [|destruct (truthy id && truthy resource && is_None auth_data)]; cbn;
    match goal with |- context [first ?l] => destruct (first l) end;
    cbn; split; reflexivity.
Qed.




(** ** Services: what a caller can rely on *)

Lemma first_filter_snoc {A} (P : A -> Prop) `{!forall x, Decision (P x)}
    (l : list A) (x : A) :
  first (filter P (l ++ [x]))
  = match first (filter P l) with
    | Some y => Some y
    | None => if decide (P x) then Some x else None
    end.
Proof.
  unfold first. rewrite filter_app.
  destruct (filter P l) as [|y l'] eqn:E; [|reflexivity].
  rewrite app_nil_l, filter_cons, filter_nil. now destruct (decide (P x)).
Qed.

(** [create_service], step by step. *)
Lemma create_service_runs :
  forall (w : World) (name : string) (auth_fields : FieldSet),
    let out := create_service name auth_fields w in
    let s := {| s_id := uuid_of w (uuids_drawn w); s_name := name;
                s_created_at := time_at w (clock_reads w);
                s_updated_at := time_at w (S (clock_reads w));
                s_auth_fields := auth_fields |} in
    out.1 = Returned s
    /\ committed (session out.2) = committed (session w)
    /\ pending (session out.2) = add_service s (pending (session w))
    /\ rows services (session out.2) = rows services (session w) ++ [s]
    /\ uuids_drawn out.2 = S (uuids_drawn w)
    /\ clock_reads out.2 = S (S (clock_reads w)).
Proof.
  intros w name auth_fields. unfold create_service. run.
  destruct (first (filter (fun s => s_name s = name) (rows services _)));
    cbn; unfold rows; cbn; rewrite app_assoc; repeat split.
Qed.

(** X1: [create_service] never fails and adds exactly one row: it returns
    a Service holding the name and auth_fields it was given, the next
    uuid as id and the next two clock readings as timestamps, appends
    it to the rows added in this transaction, and leaves the committed
    rows alone. *)
Theorem create_service_adds_one_row :
  forall (w : World) (name : string) (auth_fields : FieldSet),
    let out := create_service name auth_fields w in
    let s := {| s_id := uuid_of w (uuids_drawn w); s_name := name;
                s_created_at := time_at w (clock_reads w);
                s_updated_at := time_at w (S (clock_reads w));
                s_auth_fields := auth_fields |} in
    out.1 = Returned s
    /\ committed (session out.2) = committed (session w)
    /\ pending (session out.2) = add_service s (pending (session w))
    /\ rows services (session out.2) = rows services (session w) ++ [s]
    /\ uuids_drawn out.2 = S (uuids_drawn w)
    /\ clock_reads out.2 = S (S (clock_reads w)).
Proof. exact create_service_runs. Qed.

(** X2: looking a service up right after creating it.  By name,
    [get_service] returns the oldest row of that name: the new row only
    if no row had the name before.  By the new id, the new row unless an
    older row already has that id. *)
Theorem get_service_after_create_service :
  forall (w : World) (name : string) (auth_fields : FieldSet),
    let out := create_service name auth_fields w in
    exists s,
      out.1 = Returned s
      /\ (get_service None (Some name) out.2).1
         = Returned
             (Some (default s
                      (first (filter (fun r => s_name r = name)
                                (rows services (session w))))))
      /\ (get_service (Some (s_id s)) None out.2).1
         = Returned
             (Some (default s
                      (first (filter (fun r => s_id r = s_id s)
                                (rows services (session w)))))).
Proof.
  intros w name auth_fields.
  destruct (create_service_runs w name auth_fields)
    as (Hout & _ & _ & Hrows & _).
  cbv zeta in *. eexists. split; [exact Hout|].
  set (w' := (create_service name auth_fields w).2) in *.
  split.
  - unfold get_service. run. cbn.
    assert (E : filter (fun s0 : Service => Some (s_name s0) = Some name)
                  (rows services (session w'))
                = filter (fun s0 : Service => s_name s0 = name)
                    (rows services (session w'))).
    { apply list_filter_iff. intros x. split; [now intros [= ->]|now intros ->]. }
    rewrite E, Hrows, first_filter_snoc. cbn.
    destruct (first (filter _ (rows services (session w)))); cbn.
    + reflexivity.
    + now rewrite decide_True.
  - unfold get_service. run. cbn [is_None negb s_id].
    rewrite andb_false_r, andb_true_r.
    destruct (truthy (Some (uuid_of w (uuids_drawn w)))); cbn;
      rewrite Hrows, first_filter_snoc; cbn;
      destruct (first (filter _ (rows services (session w)))); cbn;
      try reflexivity; now rewrite decide_True.
Qed.

(** X3: [create_service] keeps the ids of the services distinct as
    long as the uuid it draws is new: if no two rows share an id and no
    row has the next uuid, no two rows share an id afterwards. *)
Theorem create_service_keeps_ids_distinct :
  forall (w : World) (name : string) (auth_fields : FieldSet),
    NoDup (s_id <$> rows services (session w)) ->
    uuid_of w (uuids_drawn w) ∉ (s_id <$> rows services (session w)) ->
    NoDup (s_id <$>
             rows services (session (create_service name auth_fields w).2)).
Proof.
  intros w name auth_fields Hnodup Hfresh.
  destruct (create_service_runs w name auth_fields)
    as (_ & _ & _ & Hrows & _).
  cbv zeta in Hrows. rewrite Hrows, fmap_app. cbn.
  apply NoDup_app. split; [exact Hnodup|]. split.
  - intros x Hx Hin. apply list_elem_of_singleton in Hin. now subst x.
  - apply NoDup_singleton.
Qed.

Lemma create_service_keeps_ids_distinct_witness :
  NoDup (s_id <$>
           rows services
             (session (create_service "glance" ["tenant_id"] ledger).2)).
Proof.
  apply create_service_keeps_ids_distinct.
  - vm_compute. apply NoDup_singleton.
  - vm_compute. intros H. apply list_elem_of_singleton in H. discriminate H.
Defined.

(** X4: [get_service] by name alone: when some row has the name, the
    call returns the oldest such row and leaves the world, its log
    included, exactly as it was. *)
Theorem get_service_by_name :
  forall (w : World) (name : string) (found : Service),
    first (filter (fun s => s_name s = name) (rows services (session w)))
      = Some found ->
    get_service None (Some name) w = (Returned (Some found), w).
Proof.
  intros w name found H. unfold get_service. run. cbn.
  assert (E : filter (fun s0 : Service => Some (s_name s0) = Some name)
                (rows services (session w))
              = filter (fun s0 : Service => s_name s0 = name)
                  (rows services (session w))).
  { apply list_filter_iff. intros x. split; [now intros [= ->]|now intros ->]. }
  rewrite E, H. reflexivity.
Qed.

Lemma get_service_by_name_witness :
  get_service None (Some "nova") ledger = (Returned (Some nova), ledger).
Proof. apply get_service_by_name. reflexivity. Defined.

(** X5: [get_service] finding nothing: the call returns None instead
    of raising; the KeyError for [id or name] is the last thing the log
    receives, and the session is untouched. *)
Theorem get_service_not_found :
  forall (w : World) (id : option ID) (name : option string),
    first
      match id with
      | Some i => filter (fun s => s_id s = i) (rows services (session w))
      | None =>
          filter (fun s => Some (s_name s) = name)
            (rows services (session w))
      end = None ->
    let out := get_service id name w in
    out.1 = Returned None
    /\ last (log out.2) = Some (ExceptionRecord (KeyError (py_or id name)))
    /\ session out.2 = session w.
Proof.
  intros w id name H. unfold get_service. run.
  destruct (truthy id && negb (is_None name));
    [|destruct (truthy id && is_None name)]; cbn;
    rewrite H; cbn; rewrite last_snoc; repeat split.
Qed.

Lemma get_service_not_found_witness :
  let out := get_service (Some "nonexistent") None ledger in
  out.1 = Returned None
  /\ last (log out.2)
     = Some (ExceptionRecord (KeyError (py_or (Some "nonexistent") None)))
  /\ session out.2 = session ledger.
Proof. apply get_service_not_found. reflexivity. Defined.

(** What [get_service] leaves in the log. *)
Lemma get_service_logs :
  forall (w : World) (id : option ID) (name : option string),
    exists extra,
      (get_service id name w).2 = logging extra w
      /\ (ExceptionRecord TypeError ∈ extra <-> truthy id = true).
Proof.
  intros [s l uo ud ta cr kc] id name. unfold get_service. run.
  destruct (truthy id) eqn:Hid; destruct name as [n|]; cbn;
    match goal with |- context [first ?l] => destruct (first l) end; cbn;
    unfold logging; cbn; rewrite <- ?app_assoc; cbn;
    first [ eexists; split; [reflexivity|]
          | exists []; rewrite app_nil_r; split; [reflexivity|] ];
    rewrite ?elem_of_cons, ?elem_of_nil; split; intros ?;
    first [done | naive_solver].
Qed.

(** X6: [get_service] only ever writes to the log, and its argument
    check fires exactly when the id is a non-empty string: a TypeError
    is logged for every such call, a name given or not, and for no
    other call. *)
Theorem get_service_check_fires_on_id :
  forall (w : World) (id : option ID) (name : option string),
    exists extra,
      (get_service id name w).2 = logging extra w
      /\ (ExceptionRecord TypeError ∈ extra <-> truthy id = true).
Proof. exact get_service_logs. Qed.

(** ** Categories and the operations that test their argument *)

(** X7: [get_category] by service and name does not look at the
    service a category belongs to: given a Service object whose id some
    service row has, it returns the oldest category of that name,
    whichever service owns it, and leaves the world as it was. *)
Theorem get_category_ignores_the_owner :
  forall (w : World) (service : Service) (name : string) (found : Category),
    Exists (fun s => s_id s = s_id service) (rows services (session w)) ->
    first (filter (fun c => c_name c = name) (rows categories (session w)))
      = Some found ->
    get_category None (RObj service) (Some name) w
    = (Returned (Some found), w).
Proof.
  intros w service name found Hs Hc. unfold get_category. run. cbn.
  rewrite bool_decide_eq_true_2 by exact Hs.
  assert (E : filter (fun c : Category => Some (c_name c) = Some name)
                (rows categories (session w))
              = filter (fun c : Category => c_name c = name)
                  (rows categories (session w))).
  { apply list_filter_iff. intros x. split; [now intros [= ->]|now intros ->]. }
  rewrite E, Hc. reflexivity.
Qed.

(** On a ledger with two services, asking for the category compute of
    glance returns the category compute of nova. *)
Lemma get_category_ignores_the_owner_witness :
  get_category None (RObj glance) (Some "compute") two_services
  = (Returned (Some compute), two_services)
  /\ c_service_id compute = Some (s_id nova)
  /\ s_id nova <> s_id glance.
Proof.
  split; [|split; [reflexivity | discriminate]].
  apply get_category_ignores_the_owner.
  - apply Exists_cons_tl, Exists_cons_hd. reflexivity.
  - reflexivity.
Defined.

(** X8: [get_category] without an id needs a Service object: given the
    id of the service, or no service at all, it raises AttributeError
    and leaves the world as it was, whatever the database holds. *)
Theorem get_category_needs_an_object :
  forall (w : World) (service : ID) (name : option string),
    get_category None (RId service) name w = (Raised AttributeError, w)
    /\ get_category None RNone name w = (Raised AttributeError, w).
Proof. intros w service name. split; reflexivity. Qed.

(** X9: [get_category] given an id never reads [service]: when a
    category has the id, the call returns the oldest one, for a Service
    object, a bare id and no service alike, and leaves the session
    alone. *)
Theorem get_category_by_id :
  forall (w : World) (id : ID) (service : Ref Service)
         (name : option string) (found : Category),
    first (filter (fun c => c_id c = id) (rows categories (session w)))
      = Some found ->
    let out := get_category (Some id) service name w in
    out.1 = Returned (Some found) /\ session out.2 = session w.
Proof.
  intros w id service name found H. unfold get_category. run.
  destruct (truthy (Some id) && truthy name && negb (is_RNone service));
    [|destruct (truthy (Some id) && truthy name && is_RNone service)]; cbn;
    unfold ID in *; rewrite H; split; reflexivity.
Qed.

Lemma get_category_by_id_witness :
  let out := get_category (Some "cat-1") (RId "svc-2") (Some "storage")
               ledger in
  out.1 = Returned (Some compute) /\ session out.2 = session ledger.
Proof. apply get_category_by_id. reflexivity. Defined.

(** X10: every operation that opens with the test
    [isinstance(sa_models.C, argument)] raises TypeError on every call
    and leaves the world exactly as it was: no row is added, nothing is
    logged, no uuid is drawn. *)
Theorem operations_testing_their_argument_always_raise :
  forall w : World,
    (forall service name usage_fset quota_fsets,
        create_category service name usage_fset quota_fsets w
        = (Raised TypeError, w))
    /\ (forall service category name parameters absolute,
          create_resource service category name parameters absolute w
          = (Raised TypeError, w))
    /\ (forall id service name,
          get_resource id service name w = (Raised TypeError, w))
    /\ (forall resource pd ad used reserved until_refresh refresh_id,
          create_usage resource pd ad used reserved until_refresh refresh_id w
          = (Raised TypeError, w))
    /\ (forall id resource pd ad,
          get_usage id resource pd ad w = (Raised TypeError, w))
    /\ (forall resource ad limit,
          create_quota resource ad limit w = (Raised TypeError, w))
    /\ (forall id resource ad,
          get_quota id resource ad w = (Raised TypeError, w))
    /\ (forall reservation resource usage delta,
          reserve reservation resource usage delta w
          = (Raised TypeError, w)).
Proof.
  intros w. repeat split; intros.
  - apply create_category_raises.
  - apply create_resource_raises.
  - apply get_resource_raises.
  - apply create_usage_raises.
  - apply get_usage_raises.
  - apply create_quota_raises.
  - apply get_quota_raises.
  - apply reserve_raises.
Qed.

(** ** Reservations *)

(** [get_reservation], case by case. *)
Lemma get_reservation_runs :
  forall (w : World),
    (forall id : ID,
        get_reservation (Some id) w
        = match first (filter (fun v => v_id v = id)
                         (rows reservations (session w))) with
          | Some found =>
              (Returned (FetchedRow found),
               logging
                 [ErrorRecord "No matching reservation found for %s id"
                    [Some id];
                  ExceptionRecord (KeyError (Some id))] w)
          | None => (Returned FetchedNone, w)
          end)
    /\ get_reservation None w
       = (Returned QueryObject,
          logging
            [ErrorRecord "No matching reservation found for %s id" [None];
             ExceptionRecord (KeyError None)] w).
Proof.
  intros [s l uo ud ta cr kc]. split.
  - intros id. unfold get_reservation. run. cbn.
    destruct (first (filter _ (rows reservations s))); cbn;
      unfold logging; cbn; rewrite <- ?app_assoc; reflexivity.
  - unfold get_reservation. run. cbn. unfold logging. cbn.
    rewrite <- app_assoc. reflexivity.
Qed.

(** X11: [get_reservation] never raises and never touches the session,
    and its error report is the wrong way round: when a reservation has
    the id, the call returns the oldest one and logs a KeyError for that
    id; when none has, it returns None and logs nothing; given no id, it
    returns the query it never ran and logs a KeyError. *)
Theorem get_reservation_reports_what_it_finds :
  forall (w : World),
    (forall id : ID,
        get_reservation (Some id) w
        = match first (filter (fun v => v_id v = id)
                         (rows reservations (session w))) with
          | Some found =>
              (Returned (FetchedRow found),
               logging
                 [ErrorRecord "No matching reservation found for %s id"
                    [Some id];
                  ExceptionRecord (KeyError (Some id))] w)
          | None => (Returned FetchedNone, w)
          end)
    /\ get_reservation None w
       = (Returned QueryObject,
          logging
            [ErrorRecord "No matching reservation found for %s id" [None];
             ExceptionRecord (KeyError None)] w).
Proof. exact get_reservation_runs. Qed.

Lemma first_filter_fresh {A} (key : A -> ID) (l : list A) (id : ID) :
  id ∉ (key <$> l) -> first (filter (fun x => key x = id) l) = None.
Proof.
  intros Hfresh. unfold first.
  destruct (filter (fun x => key x = id) l) as [|y l'] eqn:E; [reflexivity|].
  assert (Hy : y ∈ filter (fun x => key x = id) l) by (rewrite E; left).
  apply list_elem_of_filter in Hy as [Hk Hy]. exfalso. apply Hfresh.
  rewrite <- Hk. now apply list_elem_of_fmap_2.
Qed.

(** X12: [create_reservation] never fails: it returns a reservation
    with the expiry it was given and the next uuid as id, and appends it
    to the reservations; when no reservation had that id before,
    [get_reservation] by the new id returns the new reservation. *)
Theorem create_reservation_then_get_reservation :
  forall (w : World) (expire : Time),
    let out := create_reservation expire w in
    exists v,
      out.1 = Returned v
      /\ v_expire v = expire
      /\ v_id v = uuid_of w (uuids_drawn w)
      /\ rows reservations (session out.2)
         = rows reservations (session w) ++ [v]
      /\ committed (session out.2) = committed (session w)
      /\ (v_id v ∉ (v_id <$> rows reservations (session w)) ->
          (get_reservation (Some (v_id v)) out.2).1
          = Returned (FetchedRow v)).
Proof.
  intros w expire. cbv zeta.
  set (v := {| v_id := uuid_of w (uuids_drawn w);
               v_created_at := time_at w (clock_reads w);
               v_updated_at := time_at w (S (clock_reads w));
               v_expire := expire; v_status := None |}).
  assert (Hrows :
    rows reservations (session (create_reservation expire w).2)
    = rows reservations (session w) ++ [v]).
  { unfold rows. cbn. now rewrite app_assoc. }
  exists v. split; [reflexivity|]. split; [reflexivity|].
  split; [reflexivity|]. split; [exact Hrows|]. split; [reflexivity|].
  intros Hfresh.
  destruct (get_reservation_runs
              (create_reservation expire w).2) as [Hget _].
  rewrite Hget, Hrows, first_filter_snoc.
  rewrite (first_filter_fresh v_id) by exact Hfresh.
  rewrite decide_True by reflexivity. reflexivity.
Qed.

Lemma create_reservation_then_get_reservation_witness :
  exists v,
    (create_reservation 7%nat ledger).1 = Returned v
    /\ (get_reservation (Some (v_id v)) (create_reservation 7%nat ledger).2).1
       = Returned (FetchedRow v).
Proof.
  destruct (create_reservation_then_get_reservation ledger 7%nat)
    as (v & Hout & _ & Hid & _ & _ & Hget).
  exists v. split; [exact Hout|]. apply Hget. rewrite Hid.
  vm_compute. intros H. apply list_elem_of_singleton in H. discriminate H.
Defined.

(** ** Transactions *)


Lemma rollback_session w :
  session (rollback w).2 = session_rollback (session w).
Proof. reflexivity. Qed.

Lemma commit_session w :
  session (commit w).2 = session_commit (session w).
Proof. reflexivity. Qed.

Lemma save_session {A} (obj : A) w :
  session (_save obj w).2 = session_commit (session w).
Proof. reflexivity. Qed.

(** X13: a rollback undoes every creation since the last commit: after
    [create_service] or [create_reservation] followed by [rollback] the
    session is what [rollback] alone would have left, and the queries
    see the committed rows only. *)
Theorem rollback_undoes_a_creation :
  forall (w : World) (name : string) (auth_fields : FieldSet) (expire : Time),
    session (rollback (create_service name auth_fields w).2).2
    = session (rollback w).2
    /\ session (rollback (create_reservation expire w).2).2
       = session (rollback w).2
    /\ rows services
         (session (rollback (create_service name auth_fields w).2).2)
       = services (committed (session w))
    /\ rows reservations
         (session (rollback (create_reservation expire w).2).2)
       = reservations (committed (session w)).
Proof.
  intros w name auth_fields expire.
  destruct (create_service_runs w name auth_fields)
    as (_ & Hc & _).
  cbv zeta in Hc.
  assert (Hv : committed (session (create_reservation expire w).2)
               = committed (session w)) by reflexivity.
  rewrite !rollback_session. unfold session_rollback, rows.
  rewrite Hc, Hv. cbn. rewrite !app_nil_r. repeat split.
Qed.

(** X14: a commit makes a creation last: a service created and then
    committed, by [commit] or by [_save] of any object, is still the
    newest service row after a later [rollback]. *)
Theorem a_committed_creation_survives_rollback :
  forall (w : World) (name : string) (auth_fields : FieldSet),
    let out := create_service name auth_fields w in
    exists s,
      out.1 = Returned s
      /\ rows services (session (rollback (commit out.2).2).2)
         = rows services (session w) ++ [s]
      /\ rows services (session (rollback (_save s out.2).2).2)
         = rows services (session w) ++ [s].
Proof.
  intros w name auth_fields.
  destruct (create_service_runs w name auth_fields)
    as (Hout & _ & _ & Hrows & _).
  cbv zeta in *. eexists. split; [exact Hout|].
  rewrite !rollback_session, commit_session, save_session.
  unfold rows in *. cbn. rewrite !app_nil_r. split; exact Hrows.
Qed.


(** ** What a caller can and cannot do to the session *)

Lemma get_category_session id service name w :
  session (get_category id service name w).2 = session w.
Proof.
  unfold get_category. run.
  destruct (truthy id && truthy name && negb (is_RNone service));
    [|destruct (truthy id && truthy name && is_RNone service)]; cbn;
    destruct id as [i|]; cbn;
    try (destruct service as [|sid|o]; cbn; try reflexivity);
    match goal with
    | |- context [first ?l] => destruct (first l); reflexivity
    end.
Qed.

Lemma get_service_session id name w :
  session (get_service id name w).2 = session w.
Proof.
  destruct (get_service_logs w id name) as (extra & -> & _).
  reflexivity.
Qed.

Lemma get_reservation_session id w :
  session (get_reservation id w).2 = session w.
Proof.
  destruct (get_reservation_runs w) as [Hsome Hnone].
  destruct id as [i|].
  - rewrite Hsome. now destruct (first _).
  - now rewrite Hnone.
Qed.






Lemma perform_all_snoc script c w :
  perform_all (script ++ [c]) w = perform c (perform_all script w).
Proof. unfold perform_all. now rewrite foldl_app. Qed.

Lemma perform_keeps_committed c w :
  commits c = false ->
  committed (session (perform c w)) = committed (session w).
Proof.
  intros Hc. destruct c; try discriminate Hc; cbn [perform].
  - reflexivity.
  - reflexivity.
  - now destruct (create_service_runs w name auth_fields)
      as (_ & -> & _).
  - now rewrite get_service_session.
  - now rewrite create_category_raises.
  - now rewrite get_category_session.
  - now rewrite create_resource_raises.
  - now rewrite get_resource_raises.
  - now rewrite create_usage_raises.
  - now rewrite get_usage_raises.
  - now rewrite create_quota_raises.
  - now rewrite get_quota_raises.
  - reflexivity.
  - now rewrite reserve_raises.
  - now rewrite get_reservation_session.
Qed.


(** X18: nothing becomes durable unless the caller commits: a script
    without [commit] and [_save] leaves the committed rows exactly as
    they were. *)
Theorem only_a_commit_changes_the_committed_rows :
  forall (script : list Call) (w : World),
    Forall (fun c => commits c = false) script ->
    committed (session (perform_all script w)) = committed (session w).
Proof.
  intros script w. induction script as [|c script IH] using rev_ind.
  - reflexivity.
  - intros H. apply Forall_app in H as [Hs Hc].
    apply Forall_inv in Hc.
    rewrite perform_all_snoc, perform_keeps_committed by exact Hc.
    now apply IH.
Qed.

Lemma only_a_commit_changes_the_committed_rows_witness :
  committed
    (session
       (perform_all
          [Call_create_service "glance" ["tenant_id"];
           Call_create_reservation 7%nat;
           Call_get_service None (Some "glance");
           Call_rollback] ledger))
  = committed (session ledger).
Proof.
  apply only_a_commit_changes_the_committed_rows.
  repeat constructor.
Defined.



(** ** The row steps of usages and quotas *)

(** X20: the row step of [create_usage] followed by the lookup of
    [get_usage] under the same fingerprint: the step never fails and
    appends the row it returns, and the lookup then returns the oldest
    row with that resource, parameter data and auth data, which is the
    new row when none had the fingerprint before. *)
Theorem get_usage_row_after_create_usage_row :
  forall (w : World) (resource : option ID) (param_data auth_data : Data)
         (used reserved until_refresh : Z) (refresh_id : option ID),
    let out := create_usage_row resource param_data auth_data used reserved
                 until_refresh refresh_id w in
    exists u,
      out.1 = Returned u
      /\ u_resource_id u = resource
      /\ u_parameter_data u = param_data
      /\ u_auth_data u = auth_data
      /\ rows usages (session out.2) = rows usages (session w) ++ [u]
      /\ (get_usage_row None resource (Some param_data) (Some auth_data)
            out.2).1
         = Returned
             (Some (default u
                      (first
                         (filter
                            (fun r => u_resource_id r = resource
                                      /\ u_auth_data r = auth_data
                                      /\ u_parameter_data r = param_data)
                            (rows usages (session w)))))).
Proof.
  intros w resource pd ad used reserved until_refresh refresh_id. cbv zeta.
  set (u := {| u_id := uuid_of w (uuids_drawn w);
               u_created_at := time_at w (clock_reads w);
               u_updated_at := time_at w (S (clock_reads w));
               u_parameter_data := pd; u_auth_data := ad;
               u_resource_id := resource; u_used := None;
               u_reserved := None; u_until_refresh := until_refresh;
               u_refresh_id := refresh_id |}).
  set (out := create_usage_row resource pd ad used reserved until_refresh
                refresh_id w).
  assert (Hout : out.1 = Returned u
                 /\ rows usages (session out.2)
                    = rows usages (session w) ++ [u]).
  { subst out. unfold create_usage_row. run.
    match goal with |- context [first ?l] => destruct (first l) end;
      cbn; unfold rows; cbn; rewrite app_assoc; split; reflexivity. }
  destruct Hout as [Hret Hrows]. clearbody out.
  exists u. repeat split; try assumption.
  unfold get_usage_row. run. cbn.
  assert (E : forall l : list Usage,
             filter (fun r => u_resource_id r = resource
                              /\ Some (u_parameter_data r) = Some pd
                              /\ Some (u_auth_data r) = Some ad) l
             = filter (fun r => u_resource_id r = resource
                                /\ u_auth_data r = ad
                                /\ u_parameter_data r = pd) l).
  { intros l. apply list_filter_iff. intros x.
    split; [intros (? & [= ?] & [= ?]) | intros (? & ? & ?)]; subst; auto. }
  rewrite E, Hrows, first_filter_snoc.
  destruct (first (filter _ (rows usages (session w)))); cbn;
    [reflexivity|].
  rewrite decide_True by (subst u; cbn; auto). reflexivity.
Qed.

Lemma get_quota_row_result w id resource auth_data :
  (get_quota_row id resource auth_data w).1
  = Returned
      (first
         match id with
         | Some i => filter (fun q => q_id q = i) (rows quotas (session w))
         | None =>
             filter (fun q => q_resource_id q = resource
                              /\ Some (q_auth_data q) = auth_data)
               (rows quotas (session w))
         end).
Proof.
  unfold get_quota_row. run.
  destruct (truthy id && truthy resource && negb (is_None auth_data));
    [|destruct (truthy id && truthy resource && is_None auth_data)]; cbn;
    match goal with |- context [first ?l] => destruct (first l) end;
    reflexivity.
Qed.

(** X21: the row step of [create_quota] loses the resource.  With model
    constructors that check their keywords it raises TypeError and adds
    nothing; otherwise the Quota it adds has no resource_id, so the
    lookup of [get_quota] by that resource and auth data finds what it
    found before, and not the new row. *)
Theorem create_quota_row_loses_the_resource :
  forall (w : World) (resource : ID) (auth_data : Data) (limit : option Z),
    let out := create_quota_row (Some resource) auth_data limit w in
    (kwargs_checked w = true ->
     out.1 = Raised TypeError /\ session out.2 = session w)
    /\ (kwargs_checked w = false ->
        exists q,
          out.1 = Returned q
          /\ q_resource_id q = None
          /\ q_limit q = limit
          /\ rows quotas (session out.2) = rows quotas (session w) ++ [q]
          /\ (get_quota_row None (Some resource) (Some auth_data) out.2).1
             = (get_quota_row None (Some resource) (Some auth_data) w).1).
Proof.
  intros [s l uo ud ta cr kc] resource ad limit. cbv zeta.
  split; intros Hk; cbn in Hk; subst kc.
  - unfold create_quota_row. run.
    match goal with |- context [first ?l] => destruct (first l) end;
      cbn; split; reflexivity.
  - set (w := mkWorld s l uo ud ta cr false).
    set (q := {| q_id := uuid_of w (uuids_drawn w);
                 q_created_at := time_at w (clock_reads w);
                 q_updated_at := time_at w (S (clock_reads w));
                 q_resource_id := None; q_resorce_id := Some resource;
                 q_auth_data := ad; q_limit := limit |}).
    set (out := create_quota_row (Some resource) ad limit w).
    assert (Hout : out.1 = Returned q
                   /\ rows quotas (session out.2)
                      = rows quotas (session w) ++ [q]).
    { subst out w. unfold create_quota_row. run.
      match goal with |- context [first ?l] => destruct (first l) end;
        cbn; unfold rows; cbn; rewrite app_assoc; split; reflexivity. }
    destruct Hout as [Hret Hrows]. clearbody out.
    exists q. repeat split; try assumption.
    rewrite !get_quota_row_result, Hrows, filter_app, filter_cons, filter_nil.
    rewrite decide_False by (subst q; cbn; intros [[=] _]).
    now rewrite app_nil_r.
Qed.

Lemma create_quota_row_loses_the_resource_witness :
  (let out := create_quota_row (Some "res-1") T1 (Some 7) ledger in
   out.1 = Raised TypeError /\ session out.2 = session ledger)
  /\ (exists q,
        (create_quota_row (Some "res-2") T1 (Some 7) lenient_ledger).1
        = Returned q
        /\ q_resource_id q = None
        /\ (get_quota_row None (Some "res-2") (Some T1)
              (create_quota_row (Some "res-2") T1 (Some 7)
                 lenient_ledger).2).1 = Returned None).
Proof.
  split.
  - apply (create_quota_row_loses_the_resource ledger "res-1" T1 (Some 7)).
    reflexivity.
  - pose proof (proj2 (create_quota_row_loses_the_resource lenient_ledger
                         "res-2" T1 (Some 7)) eq_refl) as H.
    cbv zeta in H. destruct H as (q & Hq & Hr & _ & _ & Hget).
    exists q. split; [exact Hq|]. split; [exact Hr|].
    exact (eq_trans Hget eq_refl).
Defined.
